(** * Streaming ingestion engine of the meeting-summary front end

    Shallow embedding of [src/frontent/src/components/Upload.js]
    (the [FileUpload] component): the reducer [streamReducer], the SSE
    frame decoding of [handleUploadAndAnalyze], the per-frame JSON handling,
    the session handler with its [try]/[catch]/[finally], the two
    guards against starting a session while one is processing, and the
    values its render computes from the state; and the [Upload]
    component at the top of the same file ([handleFileChange],
    [handleUpload] and its button).

    Text is modelled as Stdlib [string] (a sequence of bytes): chunks are
    the text already produced by [TextDecoder], and [trim] strips the
    ASCII white space of ECMAScript (non-ASCII white space is not
    modelled). *)

From Stdlib Require Import String Ascii List Bool Arith Lia NArith.
From Stdlib Require Import DecimalString.
Import ListNotations.
Open Scope list_scope.
Open Scope string_scope.

(** ** JavaScript values *)

(** The values [JSON.parse] can produce, and [undefined]. Numbers keep
    their source text. *)
#[warnings="-register-all"]
Inductive jsval : Type :=
| JUndefined
| JNull
| JBool (b : bool)
| JNum (repr : string)
| JStr (s : string)
| JArr (l : list jsval)
| JObj (fields : list (string * jsval)).

(** Thrown JavaScript errors: only [name] and [message] are read. *)
Record js_error := mk_error { err_name : string; err_message : string }.

Definition char_nl : ascii := Ascii.ascii_of_nat 10.
Definition str_nl_nl : string := String char_nl (String char_nl EmptyString).

(** ASCII white space of [String.prototype.trim]: TAB, LF, VT, FF, CR, SP. *)
Definition is_js_space (c : ascii) : bool :=
  let n := nat_of_ascii c in
  (Nat.leb 9 n) && (Nat.leb n 13) || (Nat.eqb n 32).

Fixpoint trim_start (s : string) : string :=
  match s with
  | EmptyString => EmptyString
  | String c rest => if is_js_space c then trim_start rest else s
  end.

Fixpoint rev_str (s : string) (acc : string) : string :=
  match s with
  | EmptyString => acc
  | String c rest => rev_str rest (String c acc)
  end.

Definition trim_end (s : string) : string :=
  rev_str (trim_start (rev_str s EmptyString)) EmptyString.

(** [s.trim()] *)
Definition trim (s : string) : string := trim_end (trim_start s).

(** [s.substring(n)] *)
Definition substring_from (n : nat) (s : string) : string :=
  substring n (String.length s - n) s.

(** [s.startsWith(p)] *)
Definition startsWith (s p : string) : bool := prefix p s.

(** Decimal rendering of a number in a template literal. *)
Definition string_of_N (n : N) : string :=
  NilZero.string_of_uint (N.to_uint n).

(** ** [JSON.parse] *)

Section Json.

Definition is_json_ws (c : ascii) : bool :=
  let n := nat_of_ascii c in (Nat.eqb n 32) || (Nat.eqb n 9) || (Nat.eqb n 10) || (Nat.eqb n 13).

Fixpoint skip_ws (s : string) : string :=
  match s with
  | String c rest => if is_json_ws c then skip_ws rest else s
  | EmptyString => EmptyString
  end.

Definition is_digit (c : ascii) : bool :=
  let n := nat_of_ascii c in (Nat.leb 48 n) && (Nat.leb n 57).

Definition hex_val (c : ascii) : option N :=
  let n := nat_of_ascii c in
  if (Nat.leb 48 n) && (Nat.leb n 57) then Some (N.of_nat (n - 48))
  else if (Nat.leb 65 n) && (Nat.leb n 70) then Some (N.of_nat (n - 55))
  else if (Nat.leb 97 n) && (Nat.leb n 102) then Some (N.of_nat (n - 87))
  else None.

Definition byte_str (n : N) : string := String (ascii_of_N n) EmptyString.

(** A [\uXXXX] code unit, stored as its UTF-8 bytes (lone surrogates as
    three bytes). *)
Definition utf8_of_unit (u : N) : string :=
  if (u <? 128)%N then byte_str u
  else if (u <? 2048)%N then
    byte_str (192 + u / 64)%N ++ byte_str (128 + u mod 64)%N
  else byte_str (224 + u / 4096)%N ++ byte_str (128 + (u / 64) mod 64)%N
       ++ byte_str (128 + u mod 64)%N.

(** Body of a JSON string after its opening quote: the decoded text and
    what follows the closing quote. *)
Fixpoint string_body (s : string) : option (string * string) :=
  match s with
  | EmptyString => None
  | String c rest =>
    let n := nat_of_ascii c in
    if Nat.eqb n 34 then Some (EmptyString, rest)
    else if Nat.ltb n 32 then None
    else if Nat.eqb n 92 then
      match rest with
      | EmptyString => None
      | String e rest' =>
        let m := nat_of_ascii e in
        let simple (d : nat) :=
          match string_body rest' with
          | Some (b, r) => Some (String (ascii_of_nat d) b, r)
          | None => None
          end in
        if Nat.eqb m 34 then simple 34
        else if Nat.eqb m 92 then simple 92
        else if Nat.eqb m 47 then simple 47
        else if Nat.eqb m 98 then simple 8
        else if Nat.eqb m 102 then simple 12
        else if Nat.eqb m 110 then simple 10
        else if Nat.eqb m 114 then simple 13
        else if Nat.eqb m 116 then simple 9
        else if Nat.eqb m 117 then
          match rest' with
          | String h1 (String h2 (String h3 (String h4 rest''))) =>
            match hex_val h1, hex_val h2, hex_val h3, hex_val h4 with
            | Some a, Some b, Some c', Some d =>
              match string_body rest'' with
              | Some (t, r) =>
                Some (utf8_of_unit (((a * 16 + b) * 16 + c') * 16 + d)%N ++ t, r)
              | None => None
              end
            | _, _, _, _ => None
            end
          | _ => None
          end
        else None
      end
    else match string_body rest with
         | Some (b, r) => Some (String c b, r)
         | None => None
         end
  end.

(** A maximal run of digits and the rest. *)
Fixpoint digits (s : string) : string * string :=
  match s with
  | String c rest =>
    if is_digit c then let '(d, r) := digits rest in (String c d, r)
    else (EmptyString, s)
  | EmptyString => (EmptyString, EmptyString)
  end.

Definition first_is (s : string) (n : nat) : bool :=
  match s with String c _ => Nat.eqb (nat_of_ascii c) n | EmptyString => false end.

Definition tail_str (s : string) : string :=
  match s with String _ r => r | EmptyString => EmptyString end.

(** JSON number grammar: optional minus, an integer part without leading
    zeros, an optional fraction and an optional exponent. *)
Definition number (s : string) : option (string * string) :=
  let '(sign, s1) := if first_is s 45 then ("-", tail_str s) else (EmptyString, s) in
  let '(int, s2) := digits s1 in
  match int with
  | EmptyString => None
  | String c r =>
    if (Nat.eqb (nat_of_ascii c) 48) && negb (String.eqb r EmptyString) then None else
    let fr :=
      if first_is s2 46 then
        let '(f, s3) := digits (tail_str s2) in
        if String.eqb f EmptyString then None else Some ("." ++ f, s3)
      else Some (EmptyString, s2) in
    match fr with
    | None => None
    | Some (frac, s3) =>
      let ex :=
        if first_is s3 101 || first_is s3 69 then
          let s4 := tail_str s3 in
          let '(sg, s5) :=
            if first_is s4 43 then ("+", tail_str s4)
            else if first_is s4 45 then ("-", tail_str s4) else (EmptyString, s4) in
          let '(e, s6) := digits s5 in
          if String.eqb e EmptyString then None else Some ("e" ++ sg ++ e, s6)
        else Some (EmptyString, s3) in
      match ex with
      | None => None
      | Some (exp, s6) => Some (sign ++ int ++ frac ++ exp, s6)
      end
    end
  end.

Fixpoint parse_value (fuel : nat) (s : string) : option (jsval * string) :=
  match fuel with
  | O => None
  | S f =>
    let s := skip_ws s in
    if prefix "true" s then Some (JBool true, substring_from 4 s)
    else if prefix "false" s then Some (JBool false, substring_from 5 s)
    else if prefix "null" s then Some (JNull, substring_from 4 s)
    else if first_is s 34 then
      match string_body (tail_str s) with
      | Some (t, r) => Some (JStr t, r)
      | None => None
      end
    else if first_is s 91 then
      let r := skip_ws (tail_str s) in
      if first_is r 93 then Some (JArr [], tail_str r)
      else parse_elements f r []
    else if first_is s 123 then
      let r := skip_ws (tail_str s) in
      if first_is r 125 then Some (JObj [], tail_str r)
      else parse_members f r []
    else match number s with
         | Some (t, r) => Some (JNum t, r)
         | None => None
         end
  end
with parse_elements (fuel : nat) (s : string) (acc : list jsval)
  : option (jsval * string) :=
  match fuel with
  | O => None
  | S f =>
    match parse_value f s with
    | None => None
    | Some (v, r) =>
      let r := skip_ws r in
      if first_is r 44 then parse_elements f (tail_str r) (app acc [v])
      else if first_is r 93 then Some (JArr (app acc [v]), tail_str r)
      else None
    end
  end
with parse_members (fuel : nat) (s : string) (acc : list (string * jsval))
  : option (jsval * string) :=
  match fuel with
  | O => None
  | S f =>
    let s := skip_ws s in
    if first_is s 34 then
      match string_body (tail_str s) with
      | None => None
      | Some (k, r) =>
        let r := skip_ws r in
        if first_is r 58 then
          match parse_value f (tail_str r) with
          | None => None
          | Some (v, r') =>
            let r' := skip_ws r' in
            if first_is r' 44 then parse_members f (tail_str r') (app acc [(k, v)])
            else if first_is r' 125 then Some (JObj (app acc [(k, v)]), tail_str r')
            else None
          end
        else None
      end
    else None
  end.

(** [JSON.parse(text)]: [None] is the [SyntaxError]. Every nested call
    either consumes a character or is one of at most two calls made
    before the next character is consumed, so [4 * length + 4] calls
    suffice. *)
Definition JSON_parse (text : string) : option jsval :=
  match parse_value (4 * String.length text + 4) text with
  | Some (v, r) => if String.eqb (skip_ws r) EmptyString then Some v else None
  | None => None
  end.

End Json.

(** Property read [v.k] for the four keys the code reads
    ([tag], [message], [transcript], [summary]): [None] is the
    [TypeError] of a read on [null] or [undefined]; no primitive or array
    has a property of these names; on an object parsed from JSON the last
    duplicate key wins. *)
Definition get_prop (v : jsval) (k : string) : option jsval :=
  match v with
  | JUndefined | JNull => None
  | JObj fields =>
    match find (fun kv => String.eqb (fst kv) k) (rev fields) with
    | Some (_, x) => Some x
    | None => Some JUndefined
    end
  | _ => Some JUndefined
  end.

(** A JSON number text denotes zero when every mantissa digit is 0. *)
Fixpoint mantissa_zero (s : string) : bool :=
  match s with
  | EmptyString => true
  | String c rest =>
    let n := nat_of_ascii c in
    if (Nat.eqb n 101) || (Nat.eqb n 69) then true
    else if Nat.eqb n 48 then mantissa_zero rest
    else if (Nat.eqb n 45) || (Nat.eqb n 46) then mantissa_zero rest
    else false
  end.

(** ECMAScript ToBoolean. *)
Definition truthy (v : jsval) : bool :=
  match v with
  | JUndefined | JNull => false
  | JBool b => b
  | JNum r => negb (mantissa_zero r)
  | JStr s => negb (String.eqb s EmptyString)
  | JArr _ | JObj _ => true
  end.

(** [v === "lit"] *)
Definition strict_eq_str (v : jsval) (lit : string) : bool :=
  match v with JStr s => String.eqb s lit | _ => false end.

(** Writes source text with [q] in place of the double quote, so that
    JSON literals read as they do in the JavaScript source. *)
Fixpoint dq (s : string) : string :=
  match s with
  | EmptyString => EmptyString
  | String c rest =>
    String (if Nat.eqb (nat_of_ascii c) 39 then ascii_of_nat 34 else c) (dq rest)
  end.

(** ECMAScript ToString, as used by [+] on strings and by template
    literals. Numbers render as their JSON source text. *)
Fixpoint to_js_string (v : jsval) : string :=
  match v with
  | JUndefined => "undefined"
  | JNull => "null"
  | JBool true => "true"
  | JBool false => "false"
  | JNum r => r
  | JStr s => s
  | JArr l =>
    let fix join (l : list jsval) : string :=
      match l with
      | [] => EmptyString
      | x :: rest =>
        let elem := match x with
                    | JUndefined | JNull => EmptyString
                    | _ => to_js_string x
                    end in
        match rest with
        | [] => elem
        | _ => elem ++ "," ++ join rest
        end
      end in
    join l
  | JObj _ => "[object Object]"
  end.

(** ** The reducer [streamReducer] *)

Record State := mkState {
  transcript : string;
  summary : string;
  statusMessage : jsval;
  error : option string;
  isProcessing : bool
}.

Definition initialState : State :=
  {| transcript := EmptyString;
     summary := EmptyString;
     statusMessage := JStr "Upload an audio or video file to begin.";
     error := None;
     isProcessing := false |}.

(** Dispatched actions. The [COMPLETE] and [ERROR] payloads are strings
    at every dispatch site; the others carry a value read from a payload. *)
Inductive action : Type :=
| START
| UPDATE_STATUS (payload : jsval)
| APPEND_TRANSCRIPT (payload : jsval)
| APPEND_SUMMARY (payload : jsval)
| COMPLETE (payload : string)
| ERROR (payload : string).

Definition error_prefix : string := "❌ Error: ".

Definition streamReducer (state : State) (a : action) : State :=
  match a with
  | START =>
    {| transcript := transcript initialState;
       summary := summary initialState;
       statusMessage := JStr "File uploading...";
       error := None;
       isProcessing := true |}
  | UPDATE_STATUS p =>
    {| transcript := transcript state; summary := summary state;
       statusMessage := p; error := error state;
       isProcessing := isProcessing state |}
  | APPEND_TRANSCRIPT p =>
    let newTranscriptPart :=
      if Nat.ltb 0 (String.length (transcript state))
      then " " ++ to_js_string p else to_js_string p in
    {| transcript := transcript state ++ newTranscriptPart;
       summary := summary state; statusMessage := statusMessage state;
       error := error state; isProcessing := isProcessing state |}
  | APPEND_SUMMARY p =>
    let newSummaryPart :=
      if Nat.ltb 0 (String.length (summary state))
      then " " ++ to_js_string p else to_js_string p in
    {| transcript := transcript state;
       summary := summary state ++ newSummaryPart;
       statusMessage := statusMessage state;
       error := error state; isProcessing := isProcessing state |}
  | COMPLETE p =>
    {| transcript := transcript state; summary := summary state;
       statusMessage :=
         if String.eqb p EmptyString then statusMessage state else JStr p;
       error := error state; isProcessing := false |}
  | ERROR p =>
    {| transcript := transcript state; summary := summary state;
       statusMessage := JStr (error_prefix ++ p);
       error := Some p; isProcessing := false |}
  end.

(** The published state after a sequence of dispatches. *)
Definition apply_all (s : State) (acts : list action) : State :=
  fold_left streamReducer acts s.

(** ** Control flow of an async handler

    A computation records the actions it dispatches and how control left
    it: normally with a value, by a [throw], or by the [return] inside the
    read loop. *)
Inductive exit (A : Type) : Type :=
| Normal (a : A)
| Thrown (e : js_error)
| Returned.
Arguments Normal {A} a.
Arguments Thrown {A} e.
Arguments Returned {A}.

Definition M (A : Type) : Type := (list action * exit A)%type.

Definition ret {A} (a : A) : M A := ([], Normal a).
Definition dispatch (a : action) : M unit := ([a], Normal tt).
Definition throw {A} (e : js_error) : M A := ([], Thrown e).
Definition return_ {A} : M A := ([], Returned).

Definition bind {A B} (m : M A) (k : A -> M B) : M B :=
  let '(acts, ex) := m in
  match ex with
  | Normal a => let '(acts', ex') := k a in (app acts acts', ex')
  | Thrown e => (acts, Thrown e)
  | Returned => (acts, Returned)
  end.

Notation "x <- m ;; k" := (bind m (fun x => k))
  (at level 61, m at next level, right associativity).
Notation "m ;;; k" := (bind m (fun _ => k))
  (at level 61, right associativity).

(** [try { m } catch (e) { h(e) }] *)
Definition try_catch {A} (m : M A) (h : js_error -> M A) : M A :=
  let '(acts, ex) := m in
  match ex with
  | Thrown e => let '(acts', ex') := h e in (app acts acts', ex')
  | _ => (acts, ex)
  end.

Definition type_error : js_error :=
  mk_error "TypeError" "Cannot read properties of null".
Definition syntax_error : js_error :=
  mk_error "SyntaxError" "Unexpected token in JSON".

(** [new Error(m)] *)
Definition new_Error (m : jsval) : js_error :=
  mk_error "Error" (match m with JUndefined => EmptyString | _ => to_js_string m end).

(** [data.k] *)
Definition read (v : jsval) (k : string) : M jsval :=
  match get_prop v k with
  | Some x => ret x
  | None => throw type_error
  end.

(** ** Frame handling: the body of the inner [while] loop *)

(** The [try] block for a parsed payload. *)
Definition handle_json (data : jsval) : M unit :=
  tag <- read data "tag" ;;
  (if strict_eq_str tag "STATUS" then
     m <- read data "message" ;; dispatch (UPDATE_STATUS m)
   else ret tt) ;;;
  tag' <- read data "tag" ;;
  (if strict_eq_str tag' "ERROR" then
     m <- read data "message" ;; throw (new_Error m)
   else ret tt) ;;;
  t <- read data "transcript" ;;
  (if truthy t then dispatch (APPEND_TRANSCRIPT t) else ret tt) ;;;
  s <- read data "summary" ;;
  (if truthy s then dispatch (APPEND_SUMMARY s) else ret tt).

(** One trimmed SSE message. The [return] on [DONE] follows
    [isStreamSuccessful = true], so a [Returned] exit of the read loop is
    exactly a successful stream. The inner [catch] only logs. *)
Definition handle_frame (message : string) : M unit :=
  if startsWith message "data:" then
    let dataString := trim (substring_from 5 message) in
    if String.eqb dataString "[DONE]" then return_
    else try_catch
           (match JSON_parse dataString with
            | Some data => handle_json data
            | None => throw syntax_error
            end)
           (fun _ => ret tt)
  else ret tt.

(** ** The frame decoder *)

(** [buffer.indexOf('\n\n')], split into the text before it and the text
    after the delimiter. *)
Fixpoint split_nn (buffer : string) : option (string * string) :=
  match buffer with
  | EmptyString => None
  | String c rest =>
    let here :=
      if Ascii.eqb c char_nl then
        match rest with
        | String c' rest' => if Ascii.eqb c' char_nl then Some rest' else None
        | EmptyString => None
        end
      else None in
    match here with
    | Some after => Some (EmptyString, after)
    | None =>
      match split_nn rest with
      | Some (before, after) => Some (String c before, after)
      | None => None
      end
    end
  end.

(** [message = buffer.substring(0, endOfMessage).trim();
     buffer = buffer.substring(endOfMessage + 2);] *)
Definition next_frame (buffer : string) : option (string * string) :=
  match split_nn buffer with
  | Some (before, after) => Some (trim before, after)
  | None => None
  end.

(** The inner [while (true)] loop. Every iteration removes at least the
    two delimiter characters, so [S (length buffer)] rounds suffice. *)
Fixpoint drain (fuel : nat) (buffer : string) : M string :=
  match fuel with
  | O => ret buffer
  | S f =>
    match next_frame buffer with
    | None => ret buffer
    | Some (message, rest) => handle_frame message ;;; drain f rest
    end
  end.

(** The frames the decoder extracts from a buffer, and what it keeps. *)
Fixpoint frames_of (fuel : nat) (buffer : string) : list string * string :=
  match fuel with
  | O => ([], buffer)
  | S f =>
    match next_frame buffer with
    | None => ([], buffer)
    | Some (message, rest) =>
      let '(fs, r) := frames_of f rest in (message :: fs, r)
    end
  end.

(** [feed]: append a chunk and extract the complete frames. *)
Definition feed (buffer chunk : string) : list string * string :=
  let buffer' := buffer ++ chunk in
  frames_of (S (String.length buffer')) buffer'.

(** Feeding chunks one after another: all frames emitted, and the
    buffer left. *)
Fixpoint feed_all (buffer : string) (chunks : list string) : list string * string :=
  match chunks with
  | [] => ([], buffer)
  | c :: rest =>
    let '(fs, b) := feed buffer c in
    let '(fs', b') := feed_all b rest in (app fs fs', b')
  end.

(** ** The session *)

(** What [reader.read()] resolves to, or the error it rejects with; the end
    of the list is [done: true]. *)
Inductive read_result : Type :=
| RChunk (value : string)
| RReject (e : js_error).

(** What [fetch] resolves to ([ok], [status], whether [body] is
    present), or the error it rejects with. *)
Inductive response : Type :=
| Resp (ok : bool) (status : N) (has_body : bool)
| Rejected (e : js_error).

(** The outer [while (true)] loop. *)
Fixpoint read_loop (buffer : string) (reads : list read_result) : M unit :=
  match reads with
  | [] => ret tt
  | RReject e :: _ => throw e
  | RChunk value :: rest =>
    let buffer' := buffer ++ value in
    b <- drain (S (String.length buffer')) buffer' ;; read_loop b rest
  end.

(** The [try] block of [handleUploadAndAnalyze]. *)
Definition session_try (uploadRes streamRes : response)
    (reads : list read_result) : M unit :=
  dispatch (UPDATE_STATUS (JStr "Uploading file to server...")) ;;;
  match uploadRes with
  | Rejected e => throw e
  | Resp ok status _ =>
    (if ok then ret tt
     else throw (mk_error "Error" ("Upload failed with status " ++ string_of_N status))) ;;;
    dispatch (UPDATE_STATUS (JStr "File uploaded. Starting processing stream...")) ;;;
    match streamRes with
    | Rejected e => throw e
    | Resp ok' status' body =>
      (if ok' && body then ret tt
       else throw (mk_error "Error" ("Stream request failed with status " ++ string_of_N status'))) ;;;
      read_loop EmptyString reads
    end
  end.

(** The outer [catch]. *)
Definition session_catch (err : js_error) : M unit :=
  if String.eqb (err_name err) "AbortError" then ret tt
  else dispatch (ERROR (if String.eqb (err_message err) EmptyString
                        then "A fatal network or processing error occurred."
                        else err_message err)).

Definition complete_message : string := "✅ Analysis Complete. Full Report Available.".
Definition interrupted_message : string := "The streaming connection was interrupted.".

(** [!state.error] *)
Definition no_error (e : option string) : bool :=
  match e with None => true | Some m => String.eqb m EmptyString end.

(** [handleUploadAndAnalyze]: the actions it dispatches, in order. It is
    memoised with [useCallback(..., [file, state.error])], so [state] is
    the state of the render in which the callback was last created, read
    both by the guard and by [finally]. *)
Definition handleUploadAndAnalyze (state : State) (file : option string)
    (uploadRes streamRes : response) (reads : list read_result) : list action :=
  match file with
  | None => []
  | Some _ =>
    if isProcessing state then [] else
    let '(acts, ex) :=
      try_catch (session_try uploadRes streamRes reads) session_catch in
    let isStreamSuccessful := match ex with Returned => true | _ => false end in
    START :: app acts
      (if isStreamSuccessful then [COMPLETE complete_message]
       else if no_error (error state) then [ERROR interrupted_message]
       else [])
  end.

(** A click on the button: [disabled={!file || state.isProcessing}] is
    evaluated on the [current] state, and a disabled button fires no
    [onClick]; [closure] is the state the memoised handler closed over. *)
Definition click_upload (current closure : State) (file : option string)
    (uploadRes streamRes : response) (reads : list read_result) : list action :=
  if match file with None => true | Some _ => false end || isProcessing current
  then []
  else handleUploadAndAnalyze closure file uploadRes streamRes reads.

(** [handleFileChange] (not memoised, so it reads the current state): the
    new [file] and the actions dispatched. *)
Definition handleFileChange (state : State) (file selected : option string)
    : option string * list action :=
  if isProcessing state then (file, [])
  else (selected,
        [COMPLETE (match selected with
                   | Some name => "File selected: " ++ name ++ ". Ready to analyze."
                   | None => "Upload an audio or video file to begin."
                   end)]).

(** Chunk text is written with [dq] for quotes and [nl2] for the blank
    line that ends a record. *)
Definition nl2 : string := str_nl_nl.

Fixpoint has_newline (s : string) : bool :=
  match s with
  | EmptyString => false
  | String c rest => Ascii.eqb c char_nl || has_newline rest
  end.

(** The text of records, each followed by the blank-line delimiter. *)
Definition encode (records : list string) : string :=
  fold_right (fun r acc => r ++ nl2 ++ acc) EmptyString records.

(** The concatenation of the chunks of a stream. *)
Definition join_chunks (chunks : list string) : string :=
  fold_right String.append EmptyString chunks.

(** A [200] response with a body. *)
Definition ok_response : response := Resp true 200%N true.

(** A first read carrying one transcript record. *)
Definition done_witness_reads : list read_result :=
  [RChunk (dq "data: {'transcript':'a'}" ++ nl2)].

(** The state after a file is picked: the render in which the memoised
    handler is created. *)
Definition ready_state : State :=
  apply_all initialState (snd (handleFileChange initialState None (Some "meeting.mp3"))).

(** A stream carrying a backend [ERROR] payload, then a transcript
    fragment, then the sentinel. *)
Definition error_tag_reads : list read_result :=
  [RChunk (dq "data: {'tag':'ERROR','message':'boom'}" ++ nl2);
   RChunk (dq "data: {'transcript':'x'}" ++ nl2);
   RChunk ("data: [DONE]" ++ nl2)].

(** A stream that delivers one fragment, then its read rejects because
    the abort signal fired. *)
Definition aborted_reads : list read_result :=
  [RChunk (dq "data: {'transcript':'hi'}" ++ nl2);
   RReject (mk_error "AbortError" "The user aborted a request.")].

(** The actions that change neither [error] nor [isProcessing]. *)
Definition is_update (a : action) : bool :=
  match a with
  | UPDATE_STATUS _ | APPEND_TRANSCRIPT _ | APPEND_SUMMARY _ => true
  | START | COMPLETE _ | ERROR _ => false
  end.

(** ** Rendering of [FileUpload] *)

(** [s.split(':')[0]] *)
Fixpoint before_colon (s : string) : string :=
  match s with
  | EmptyString => EmptyString
  | String c rest =>
    if Nat.eqb (nat_of_ascii c) 58 then EmptyString else String c (before_colon rest)
  end.

(** The status panel:
    [state.error ? `❌ ${state.error}` : state.statusMessage]. *)
Definition status_panel (state : State) : jsval :=
  match error state with
  | Some e => if String.eqb e EmptyString then statusMessage state
              else JStr ("❌ " ++ e)
  | None => statusMessage state
  end.

(** The button's label: while processing,
    [state.statusMessage.split(':')[0] || "Processing..."]; [None] is
    the [TypeError] of calling [split] on a value that is not a string. *)
Definition button_label (state : State) : option string :=
  if isProcessing state then
    match statusMessage state with
    | JStr s =>
      let head := before_colon s in
      Some (if String.eqb head EmptyString then "Processing..." else head)
    | _ => None
    end
  else Some "Upload & Analyze".

(** ** The [Upload] component (first component of the file) *)

Record UploadState := mkUploadState {
  localFile : option string;
  isUploading : bool;
  upload_error : option string
}.

(** The parent's ([App]) state that [Upload] writes through [setFile]
    and [setStreamData]. *)
Record AppState := mkAppState {
  app_file : option string;
  streamData : list jsval
}.


Definition upload_failed_message : string :=
  "❌ Upload failed. Check if the backend is running and accessible (http://localhost:8000).".

(** [handleUpload] up to the [await]: the states while the upload is
    pending, or [None] for the early [return]. *)
Definition handleUpload_begin (st : UploadState) (app : AppState)
    : (UploadState * AppState) + UploadState :=
  match localFile st with
  | None =>
    inr {| localFile := localFile st; isUploading := isUploading st;
           upload_error := Some "Please select a file first." |}
  | Some _ =>
    inl ({| localFile := localFile st; isUploading := true; upload_error := None |},
         {| app_file := None; streamData := [] |})
  end.

(** [handleUpload]: the states once [fetch] has settled with [res]
    and [finally] has run. *)
Definition handleUpload (st : UploadState) (app : AppState) (res : response)
    : UploadState * AppState :=
  match handleUpload_begin st app with
  | inr st' => (st', app)
  | inl (st1, app1) =>
    let '(err, app2) :=
      match res with
      | Resp true _ _ =>
        (upload_error st1, {| app_file := localFile st; streamData := streamData app1 |})
      | Resp false _ _ | Rejected _ => (Some upload_failed_message, app1)
      end in
    ({| localFile := localFile st1; isUploading := false; upload_error := err |}, app2)
  end.

(** A click on the button, [disabled={!localFile || isUploading}]. *)
Definition upload_click (st : UploadState) (app : AppState) (res : response)
    : UploadState * AppState :=
  if match localFile st with None => true | Some _ => false end || isUploading st
  then (st, app)
  else handleUpload st app res.

(** ** Helpers for stating properties *)

(** Terminal transitions. *)
Definition is_terminal (a : action) : bool :=
  match a with
  | COMPLETE _ | ERROR _ => true
  | _ => false
  end.

(** The text each [APPEND_TRANSCRIPT] of a list contributes. *)
Fixpoint transcript_parts (acts : list action) : list string :=
  match acts with
  | [] => []
  | APPEND_TRANSCRIPT p :: rest => to_js_string p :: transcript_parts rest
  | _ :: rest => transcript_parts rest
  end.

(** Does the text contain a blank line? *)
Definition has_blank_line (s : string) : bool :=
  match split_nn s with Some _ => true | None => false end.

(** Actions other than [START]. *)
Definition not_start (a : action) : bool :=
  match a with START => false | _ => true end.

(** Strings each preceded by one space. *)
Definition spaced (parts : list string) : string :=
  fold_right (fun t acc => " " ++ t ++ acc) EmptyString parts.

(** The CRLF line end. *)
Definition crlf : string := String (ascii_of_nat 13) (String char_nl EmptyString).

(** * Properties *)

(** ** Sanity checks of the embedding *)

Example json_parse_ex1 :
  JSON_parse (dq "{'tag':'ERROR','message':'boom'}") =
  Some (JObj [("tag", JStr "ERROR"); ("message", JStr "boom")]).
Proof. vm_compute. reflexivity. Qed.

Example json_parse_ex2 :
  JSON_parse (dq " { 'a' : [1, -2.5e3, true, null, {}], 'b':'x\u0041' } ") =
  Some (JObj [("a", JArr [JNum "1"; JNum "-2.5e3"; JBool true; JNull; JObj []]); ("b", JStr "xA")]).
Proof. vm_compute. reflexivity. Qed.

Example json_parse_ex3 : JSON_parse (dq "{'a':01}") = None.
Proof. vm_compute. reflexivity. Qed.


(** ** The reducer *)

(** C6: [APPEND_TRANSCRIPT(t)] extends [transcript] with [t] when it is
    empty and with [" " + t] otherwise; [APPEND_SUMMARY] follows the same
    rule; appending ["hello"; "world"] from the empty transcript gives
    ["hello world"] and appending [""; "x"] gives ["x"]. *)
Theorem append_join_rule : forall (s : State) (t : string),
  transcript (streamReducer s (APPEND_TRANSCRIPT (JStr t))) =
    (if String.eqb (transcript s) EmptyString then transcript s ++ t
     else transcript s ++ " " ++ t) /\
  summary (streamReducer s (APPEND_SUMMARY (JStr t))) =
    (if String.eqb (summary s) EmptyString then summary s ++ t
     else summary s ++ " " ++ t) /\
  transcript (apply_all initialState
    [APPEND_TRANSCRIPT (JStr "hello"); APPEND_TRANSCRIPT (JStr "world")])
    = "hello world" /\
  transcript (apply_all initialState
    [APPEND_TRANSCRIPT (JStr EmptyString); APPEND_TRANSCRIPT (JStr "x")])
    = "x".
Proof.
  intros [tr su st er ip] t; simpl.
  split; [destruct tr; reflexivity|].
  split; [destruct su; reflexivity|].
  split; reflexivity.
Qed.

(** C8 refuted: after [ERROR "boom"] the status is not ["error: boom"]. *)
Lemma error_status_not_plain : 
  statusMessage (streamReducer initialState (ERROR "boom")) <> JStr ("error: " ++ "boom").
Proof. vm_compute. discriminate. Qed.

(** C8 as the code has it: [ERROR(t)] clears [isProcessing], sets
    [error] to [t] and [status] to ["❌ Error: " + t], and leaves the
    transcript and summary as they were. *)
Theorem error_transition : forall (s : State) (t : string),
  let s' := streamReducer s (ERROR t) in
  isProcessing s' = false /\ error s' = Some t /\
  statusMessage s' = JStr ("❌ Error: " ++ t) /\
  transcript s' = transcript s /\ summary s' = summary s.
Proof. intros s t; simpl; repeat split; reflexivity. Qed.

(** ** Exclusivity of sessions *)

(** C9: while the current state is processing, a click on the button and
    a file change are both no-ops: nothing is dispatched, the published
    state and the selected file stay as they are. *)
Theorem start_rejected_while_processing :
  forall (current closure : State) (file : option string)
         (uploadRes streamRes : response) (reads : list read_result),
  isProcessing current = true ->
  click_upload current closure file uploadRes streamRes reads = [] /\
  apply_all current (click_upload current closure file uploadRes streamRes reads) = current /\
  (forall selected, handleFileChange current file selected = (file, [])).
Proof.
  intros current closure file uploadRes streamRes reads H.
  unfold click_upload, handleFileChange; rewrite H, orb_true_r.
  repeat split; reflexivity.
Qed.

Lemma start_rejected_while_processing_witness :
  let cur := streamReducer initialState START in
  isProcessing cur = true /\
  click_upload cur initialState (Some "meeting.mp3") ok_response ok_response [] = [].
Proof.
  split; [reflexivity|].
  apply (start_rejected_while_processing (streamReducer initialState START)
           initialState (Some "meeting.mp3") ok_response ok_response []).
  reflexivity.
Defined.

(** ** Frame handling *)

Lemma get_prop_defined : forall v k k' x,
  get_prop v k = Some x -> exists y, get_prop v k' = Some y.
Proof.
  intros [| | b | r | s | l | fs] k k' x H; simpl in *; try discriminate;
    try (eexists; reflexivity).
  destruct (find (fun kv => String.eqb (fst kv) k') (rev fs)) as [[? ?]|];
    eexists; reflexivity.
Qed.

(** The actions of a parsed payload, read off [handle_json]. *)
Lemma handle_json_actions : forall data,
  fst (handle_json data) =
  match get_prop data "tag" with
  | None => []
  | Some tag =>
    app (if strict_eq_str tag "STATUS" then
           match get_prop data "message" with Some m => [UPDATE_STATUS m] | None => [] end
         else [])
        (if strict_eq_str tag "ERROR" then []
         else app (match get_prop data "transcript" with
                   | Some t => if truthy t then [APPEND_TRANSCRIPT t] else []
                   | None => [] end)
                  (match get_prop data "summary" with
                   | Some s => if truthy s then [APPEND_SUMMARY s] else []
                   | None => [] end))
  end.
Proof.
  intros data. unfold handle_json, read, bind, ret, dispatch, throw.
  destruct (get_prop data "tag") as [tag|] eqn:Htag; [|reflexivity].
  destruct (get_prop_defined _ _ "message" _ Htag) as [m Hm].
  destruct (get_prop_defined _ _ "transcript" _ Htag) as [t Ht].
  destruct (get_prop_defined _ _ "summary" _ Htag) as [u Hu].
  rewrite Hm, Ht, Hu.
  destruct (strict_eq_str tag "STATUS"), (strict_eq_str tag "ERROR"),
    (truthy t), (truthy u); reflexivity.
Qed.

Lemma handle_json_exit : forall data,
  snd (handle_json data) = Normal tt \/ exists e, snd (handle_json data) = Thrown e.
Proof.
  intros data. unfold handle_json, read, bind, ret, dispatch, throw.
  destruct (get_prop data "tag") as [tag|] eqn:Htag; [|right; eexists; reflexivity].
  destruct (get_prop_defined _ _ "message" _ Htag) as [m Hm].
  destruct (get_prop_defined _ _ "transcript" _ Htag) as [t Ht].
  destruct (get_prop_defined _ _ "summary" _ Htag) as [u Hu].
  rewrite Hm, Ht, Hu.
  destruct (strict_eq_str tag "STATUS"), (strict_eq_str tag "ERROR"),
    (truthy t), (truthy u); simpl; eauto.
Qed.

(** One message: its actions and how control leaves it. Only the [DONE]
    sentinel leaves by [return]; the inner [catch] turns every other exit
    into a normal one. *)
Lemma handle_frame_spec : forall message,
  handle_frame message =
  if startsWith message "data:" then
    let dataString := trim (substring_from 5 message) in
    if String.eqb dataString "[DONE]" then ([], Returned)
    else (match JSON_parse dataString with
          | Some data => fst (handle_json data)
          | None => []
          end, Normal tt)
  else ([], Normal tt).
Proof.
  intros message. unfold handle_frame.
  destruct (startsWith message "data:"); [|reflexivity].
  destruct (String.eqb _ "[DONE]"); [reflexivity|].
  destruct (JSON_parse _) as [data|]; [|reflexivity].
  unfold try_catch, ret.
  destruct (handle_json data) as [acts ex] eqn:Hj.
  destruct (handle_json_exit data) as [Hn | [e He]]; rewrite Hj in *; simpl in *;
    subst; rewrite ?app_nil_r; reflexivity.
Qed.

(** C10: a message causes [APPEND_TRANSCRIPT p] (resp. [APPEND_SUMMARY p])
    only when its body parses to a payload whose [transcript]
    (resp. [summary]) is [p] and [p] is truthy; so a field equal to the
    empty string never causes an append. *)
Theorem append_only_nonempty : forall (message : string) (p : jsval),
  (In (APPEND_TRANSCRIPT p) (fst (handle_frame message)) ->
   exists data, JSON_parse (trim (substring_from 5 message)) = Some data /\
     get_prop data "transcript" = Some p /\ truthy p = true /\ p <> JStr EmptyString) /\
  (In (APPEND_SUMMARY p) (fst (handle_frame message)) ->
   exists data, JSON_parse (trim (substring_from 5 message)) = Some data /\
     get_prop data "summary" = Some p /\ truthy p = true /\ p <> JStr EmptyString).
Proof.
  intros message p. rewrite handle_frame_spec.
  destruct (startsWith message "data:"); [|simpl; split; intros []].
  simpl. destruct (String.eqb _ "[DONE]"); [simpl; split; intros []|].
  destruct (JSON_parse _) as [data|]; [|simpl; split; intros []].
  simpl. rewrite handle_json_actions.
  destruct (get_prop data "tag") as [tag|] eqn:Htag; [|simpl; split; intros []].
  destruct (get_prop_defined _ _ "message" _ Htag) as [m Hm].
  destruct (get_prop_defined _ _ "transcript" _ Htag) as [t Ht].
  destruct (get_prop_defined _ _ "summary" _ Htag) as [u Hu].
  rewrite Hm, Ht, Hu.
  split; intros Hin; exists data; split; try reflexivity;
    destruct (strict_eq_str tag "STATUS"), (strict_eq_str tag "ERROR"),
      (truthy t) eqn:Et, (truthy u) eqn:Eu; simpl in Hin;
    repeat (destruct Hin as [Hin | Hin]; try discriminate);
    try contradiction; inversion Hin; subst;
    repeat split; auto; intros Hp; subst; discriminate.
Qed.

Lemma append_only_nonempty_witness :
  let m := dq "data: {'transcript':'hi','summary':'s'}" in
  In (APPEND_TRANSCRIPT (JStr "hi")) (fst (handle_frame m)) /\
  truthy (JStr "hi") = true /\
  (exists data, JSON_parse (trim (substring_from 5 m)) = Some data /\
     get_prop data "transcript" = Some (JStr "hi") /\ truthy (JStr "hi") = true /\
     JStr "hi" <> JStr EmptyString).
Proof.
  assert (H : In (APPEND_TRANSCRIPT (JStr "hi"))
                 (fst (handle_frame (dq "data: {'transcript':'hi','summary':'s'}"))))
    by (vm_compute; auto).
  split; [exact H|]. split; [reflexivity|].
  exact (proj1 (append_only_nonempty (dq "data: {'transcript':'hi','summary':'s'}")
                  (JStr "hi")) H).
Defined.

(** ** The frame decoder *)

Lemma str_app_length : forall x y : string,
  String.length (x ++ y) = String.length x + String.length y.
Proof. induction x as [|c x IH]; intros y; simpl; auto. Qed.

Lemma str_app_assoc : forall x y z : string, (x ++ y) ++ z = x ++ (y ++ z).
Proof. induction x as [|c x IH]; intros y z; simpl; f_equal; auto. Qed.

Lemma str_app_nil_r : forall x : string, x ++ EmptyString = x.
Proof. induction x as [|c x IH]; simpl; f_equal; auto. Qed.

Lemma split_nn_length : forall x a b,
  split_nn x = Some (a, b) ->
  String.length x = String.length a + 2 + String.length b.
Proof.
  induction x as [|c rest IH]; intros a b H; simpl in H; [discriminate|].
  destruct (Ascii.eqb c char_nl) eqn:Ec.
  - destruct rest as [|c' rest'].
    + discriminate.
    + destruct (Ascii.eqb c' char_nl) eqn:Ec'.
      * injection H as <- <-; reflexivity.
      * destruct (split_nn (String c' rest')) as [[a' b']|] eqn:Hs; [|discriminate].
        injection H as <- <-. specialize (IH _ _ eq_refl). simpl in *. lia.
  - destruct (split_nn rest) as [[a' b']|] eqn:Hs; [|discriminate].
    injection H as <- <-. specialize (IH _ _ eq_refl). simpl in *. lia.
Qed.

(** The first delimiter of [x] is still the first one of [x ++ y]. *)
Lemma split_nn_app : forall x y a b,
  split_nn x = Some (a, b) -> split_nn (x ++ y) = Some (a, b ++ y).
Proof.
  induction x as [|c rest IH]; intros y a b H; simpl in H; [discriminate|].
  simpl. destruct (Ascii.eqb c char_nl) eqn:Ec.
  - destruct rest as [|c' rest'].
    + discriminate.
    + simpl. destruct (Ascii.eqb c' char_nl) eqn:Ec'.
      * injection H as <- <-; reflexivity.
      * destruct (split_nn (String c' rest')) as [[a' b']|] eqn:Hs; [|discriminate].
        injection H as <- <-.
        pose proof (IH y _ _ eq_refl) as IH'. simpl in IH'. rewrite Ec' in IH'.
        rewrite IH'. reflexivity.
  - destruct (split_nn rest) as [[a' b']|] eqn:Hs; [|discriminate].
    injection H as <- <-. rewrite (IH _ _ _ eq_refl). reflexivity.
Qed.

Lemma next_frame_length : forall x m b,
  next_frame x = Some (m, b) -> String.length b + 2 <= String.length x.
Proof.
  unfold next_frame. intros x m b H.
  destruct (split_nn x) as [[a b']|] eqn:Hs; [|discriminate].
  injection H as _ <-. rewrite (split_nn_length _ _ _ Hs). lia.
Qed.

Lemma next_frame_app : forall x y m b,
  next_frame x = Some (m, b) -> next_frame (x ++ y) = Some (m, b ++ y).
Proof.
  unfold next_frame. intros x y m b H.
  destruct (split_nn x) as [[a b']|] eqn:Hs; [|discriminate].
  injection H as <- <-. rewrite (split_nn_app _ _ _ _ Hs). reflexivity.
Qed.

(** Any fuel above the length of the buffer gives the same result. *)
Lemma frames_of_fuel : forall f1 f2 s,
  String.length s < f1 -> String.length s < f2 -> frames_of f1 s = frames_of f2 s.
Proof.
  induction f1 as [|f1 IH]; intros f2 s H1 H2; [lia|].
  destruct f2 as [|f2]; [lia|]. simpl.
  destruct (next_frame s) as [[m b]|] eqn:Hn; [|reflexivity].
  pose proof (next_frame_length _ _ _ Hn).
  rewrite (IH f2 b) by lia. reflexivity.
Qed.

Lemma frames_of_none : forall f s,
  next_frame s = None -> frames_of f s = ([], s).
Proof. intros [|f] s H; simpl; [|rewrite H]; reflexivity. Qed.

(** The buffer the decoder keeps holds no complete frame. *)
Lemma frames_of_rest : forall f s fs r,
  String.length s < f -> frames_of f s = (fs, r) -> next_frame r = None.
Proof.
  induction f as [|f IH]; intros s fs r Hf H; [lia|]. simpl in H.
  destruct (next_frame s) as [[m b]|] eqn:Hn.
  - pose proof (next_frame_length _ _ _ Hn).
    destruct (frames_of f b) as [fs' r'] eqn:Hb. injection H as _ <-.
    apply (IH b fs'); [lia | exact Hb].
  - injection H as _ <-. exact Hn.
Qed.

Lemma frames_of_step : forall f s m b,
  next_frame s = Some (m, b) ->
  frames_of (S f) s = let '(fs, r) := frames_of f b in (m :: fs, r).
Proof. intros f s m b H. simpl. rewrite H. reflexivity. Qed.

(** Decoding [x ++ y] is decoding [x], then decoding what [x] left
    followed by [y]. *)
Lemma frames_app : forall n x y, String.length x < n ->
  frames_of (S (String.length (x ++ y))) (x ++ y) =
  let '(fs, r) := frames_of (S (String.length x)) x in
  let '(fs', r') := frames_of (S (String.length (r ++ y))) (r ++ y) in
  (app fs fs', r').
Proof.
  induction n as [|n IH]; intros x y Hx; [lia|].
  destruct (next_frame x) as [[m b]|] eqn:Hn.
  - pose proof (next_frame_length _ _ _ Hn) as Hlen.
    pose proof (next_frame_app _ y _ _ Hn) as Hn'.
    rewrite (frames_of_step _ _ _ _ Hn'), (frames_of_step _ _ _ _ Hn).
    rewrite (frames_of_fuel (String.length (x ++ y)) (S (String.length (b ++ y))) (b ++ y))
      by (rewrite !str_app_length; lia).
    rewrite (frames_of_fuel (String.length x) (S (String.length b)) b) by lia.
    rewrite (IH b y) by lia.
    destruct (frames_of (S (String.length b)) b) as [fs r].
    destruct (frames_of (S (String.length (r ++ y))) (r ++ y)) as [fs' r'].
    reflexivity.
  - rewrite (frames_of_none (S (String.length x)) x Hn).
    destruct (frames_of (S (String.length (x ++ y))) (x ++ y)); reflexivity.
Qed.

(** Feeding chunks one by one decodes their concatenation. *)
Lemma feed_all_frames : forall chunks b, next_frame b = None ->
  feed_all b chunks =
  frames_of (S (String.length (b ++ join_chunks chunks))) (b ++ join_chunks chunks).
Proof.
  induction chunks as [|c cs IH]; intros b Hb.
  - change (join_chunks []) with EmptyString.
    rewrite str_app_nil_r, (frames_of_none _ b Hb). reflexivity.
  - change (join_chunks (c :: cs)) with (c ++ join_chunks cs).
    cbn [feed_all]. unfold feed.
    destruct (frames_of (S (String.length (b ++ c))) (b ++ c)) as [fs b'] eqn:Hf.
    assert (Hb' : next_frame b' = None)
      by (apply (frames_of_rest _ _ _ _ (Nat.lt_succ_diag_r _) Hf)).
    rewrite (IH b' Hb').
    rewrite <- str_app_assoc.
    rewrite (frames_app (S (String.length (b ++ c))) (b ++ c) (join_chunks cs)
               (Nat.lt_succ_diag_r _)).
    rewrite Hf.
    destruct (frames_of _ (b' ++ join_chunks cs)); reflexivity.
Qed.

Lemma split_nn_cons : forall c s,
  Ascii.eqb c char_nl = false ->
  split_nn (String c s) =
  match split_nn s with
  | Some (before, after) => Some (String c before, after)
  | None => None
  end.
Proof. intros c s H. simpl. rewrite H. reflexivity. Qed.

Lemma split_nn_record : forall r x,
  has_newline r = false -> split_nn (r ++ nl2 ++ x) = Some (r, x).
Proof.
  induction r as [|c r IH]; intros x H; [reflexivity|].
  simpl in H. apply orb_false_iff in H as [Hc Hr].
  change (String c r ++ nl2 ++ x) with (String c (r ++ nl2 ++ x)).
  rewrite (split_nn_cons _ _ Hc), (IH x Hr). reflexivity.
Qed.

Lemma frames_of_encode : forall records,
  forallb (fun r => negb (has_newline r)) records = true ->
  frames_of (S (String.length (encode records))) (encode records) =
  (map trim records, EmptyString).
Proof.
  induction records as [|r rs IH]; intros H; [reflexivity|].
  simpl in H. apply andb_true_iff in H as [Hr Hrs].
  apply negb_true_iff in Hr.
  assert (Hn : next_frame (encode (r :: rs)) = Some (trim r, encode rs)).
  { unfold next_frame. change (encode (r :: rs)) with (r ++ nl2 ++ encode rs).
    rewrite (split_nn_record r _ Hr). reflexivity. }
  rewrite (frames_of_step _ _ _ _ Hn).
  pose proof (next_frame_length _ _ _ Hn).
  rewrite (frames_of_fuel _ (S (String.length (encode rs))) (encode rs)) by lia.
  rewrite (IH Hrs). reflexivity.
Qed.

(** C4: if the chunks of a stream concatenate to [N] single-line records
    each ended by a blank line, feeding them one by one emits exactly the
    [N] trimmed records, each once and in order, and keeps nothing,
    however the text is split into chunks. *)
Theorem decoder_chunking_invariant : forall (records chunks : list string),
  forallb (fun r => negb (has_newline r)) records = true ->
  join_chunks chunks = encode records ->
  feed_all EmptyString chunks = (map trim records, EmptyString) /\
  length (fst (feed_all EmptyString chunks)) = length records.
Proof.
  intros records chunks Hr Hj.
  assert (H : feed_all EmptyString chunks = (map trim records, EmptyString)).
  { rewrite (feed_all_frames chunks EmptyString eq_refl). simpl.
    rewrite Hj. apply frames_of_encode, Hr. }
  split; [exact H|]. rewrite H. apply length_map.
Qed.

Lemma decoder_chunking_invariant_witness :
  let records := [dq "data: {'transcript':'a'}"; "data: [DONE]"] in
  let chunks := [dq "data: {'tran"; dq "script':'a'}"; String char_nl EmptyString;
                 String char_nl "data: [DO"; "NE]"; nl2] in
  forallb (fun r => negb (has_newline r)) records = true /\
  join_chunks chunks = encode records /\
  feed_all EmptyString chunks = (map trim records, EmptyString).
Proof.
  split; [reflexivity|]. split; [reflexivity|].
  apply (decoder_chunking_invariant
           [dq "data: {'transcript':'a'}"; "data: [DONE]"]
           [dq "data: {'tran"; dq "script':'a'}"; String char_nl EmptyString;
            String char_nl "data: [DO"; "NE]"; nl2]); reflexivity.
Defined.

(** ** The read loop *)

Lemma bind_returned_inv : forall {A B} (m : M A) (k : A -> M B) acts,
  bind m k = (acts, Returned) ->
  (m = (acts, Returned)) \/
  (exists a a1 a2, m = (a1, Normal a) /\ k a = (a2, Returned) /\ acts = app a1 a2).
Proof.
  intros A B [a1 [a|e|]] k acts H; simpl in H.
  - destruct (k a) as [a2 ex] eqn:Hk. injection H as <- ->.
    right. exists a, a1, a2. auto.
  - discriminate.
  - injection H as <-. left. reflexivity.
Qed.

Lemma bind_ext_returned : forall {A B} (m : M A) (k k' : A -> M B) acts,
  bind m k = (acts, Returned) ->
  (forall a acts', k a = (acts', Returned) -> k' a = (acts', Returned)) ->
  bind m k' = (acts, Returned).
Proof.
  intros A B m k k' acts H Hk.
  destruct (bind_returned_inv m k acts H) as [-> | (a & a1 & a2 & -> & Ha & ->)].
  - reflexivity.
  - simpl. rewrite (Hk a a2 Ha). reflexivity.
Qed.

Lemma drain_step : forall f s m b,
  next_frame s = Some (m, b) ->
  drain (S f) s = (handle_frame m ;;; drain f b).
Proof. intros f s m b H. simpl. rewrite H. reflexivity. Qed.

Lemma drain_fuel : forall f1 f2 s,
  String.length s < f1 -> String.length s < f2 -> drain f1 s = drain f2 s.
Proof.
  induction f1 as [|f1 IH]; intros f2 s H1 H2; [lia|].
  destruct f2 as [|f2]; [lia|].
  destruct (next_frame s) as [[m b]|] eqn:Hn.
  - pose proof (next_frame_length _ _ _ Hn).
    rewrite !(drain_step _ _ _ _ Hn), (IH f2 b) by lia. reflexivity.
  - simpl. rewrite Hn. reflexivity.
Qed.

(** Once [DONE] is reached, text appended to the buffer is never looked
    at. *)
Lemma drain_returned_app : forall f x y acts,
  drain f x = (acts, Returned) -> drain f (x ++ y) = (acts, Returned).
Proof.
  induction f as [|f IH]; intros x y acts H; [discriminate|].
  destruct (next_frame x) as [[m b]|] eqn:Hn.
  - rewrite (drain_step _ _ _ _ Hn) in H.
    rewrite (drain_step _ _ _ _ (next_frame_app _ y _ _ Hn)).
    apply (bind_ext_returned _ _ _ _ H). intros _ acts' Hd. apply IH, Hd.
  - simpl in H. rewrite Hn in H. discriminate.
Qed.

Lemma drain_returned_fuel : forall f f' x acts,
  drain f x = (acts, Returned) -> f <= f' -> drain f' x = (acts, Returned).
Proof.
  induction f as [|f IH]; intros f' x acts H Hf; [discriminate|].
  destruct f' as [|f']; [lia|].
  destruct (next_frame x) as [[m b]|] eqn:Hn.
  - rewrite (drain_step _ _ _ _ Hn) in H. rewrite (drain_step _ _ _ _ Hn).
    apply (bind_ext_returned _ _ _ _ H). intros _ acts' Hd.
    apply (IH f' b _ Hd). lia.
  - simpl in H. rewrite Hn in H. discriminate.
Qed.

Lemma read_loop_returned_app : forall reads b more acts,
  read_loop b reads = (acts, Returned) ->
  read_loop b (app reads more) = (acts, Returned).
Proof.
  induction reads as [|[v|e] reads IH]; intros b more acts H; simpl in *;
    try discriminate.
  apply (bind_ext_returned _ _ _ _ H). intros b' acts' Hr. apply IH, Hr.
Qed.

(** Once [DONE] is reached in a chunk, the rest of that chunk and every
    later read are ignored. *)
Lemma read_loop_returned_extend : forall pre b c t more acts,
  read_loop b (app pre [RChunk c]) = (acts, Returned) ->
  read_loop b (app pre (RChunk (c ++ t) :: more)) = (acts, Returned).
Proof.
  induction pre as [|[v|e] pre IH]; intros b c t more acts H;
    cbn [read_loop List.app] in *; try discriminate.
  - destruct (bind_returned_inv _ _ _ H) as [Hd | (b' & a1 & a2 & _ & Hr & _)];
      [| simpl in Hr; discriminate].
    rewrite <- str_app_assoc.
    rewrite (drain_returned_fuel _ _ _ _ (drain_returned_app _ _ t _ Hd))
      by (rewrite !str_app_length; lia).
    reflexivity.
  - apply (bind_ext_returned _ _ _ _ H). intros b' acts' Hr. apply IH, Hr.
Qed.

Lemma session_try_returned_extend : forall uploadRes streamRes pre c t more acts,
  session_try uploadRes streamRes (app pre [RChunk c]) = (acts, Returned) ->
  session_try uploadRes streamRes (app pre (RChunk (c ++ t) :: more)) = (acts, Returned).
Proof.
  intros uploadRes streamRes pre c t more acts H. unfold session_try in *.
  apply (bind_ext_returned _ _ _ _ H). intros [] a1 H1.
  destruct uploadRes as [ok status body|e]; [|discriminate].
  apply (bind_ext_returned _ _ _ _ H1). intros [] a2 H2.
  apply (bind_ext_returned _ _ _ _ H2). intros [] a3 H3.
  destruct streamRes as [ok' status' body'|e]; [|discriminate].
  apply (bind_ext_returned _ _ _ _ H3). intros [] a4 H4.
  apply read_loop_returned_extend, H4.
Qed.

(** ** What the [try] block dispatches *)

Lemma bind_updates : forall {A B} (m : M A) (k : A -> M B),
  forallb is_update (fst m) = true ->
  (forall a, forallb is_update (fst (k a)) = true) ->
  forallb is_update (fst (bind m k)) = true.
Proof.
  intros A B [acts [a|e|]] k Hm Hk; simpl in *; auto.
  specialize (Hk a). destruct (k a) as [acts' ex]. simpl in *.
  rewrite forallb_app, Hm, Hk. reflexivity.
Qed.

Lemma handle_frame_updates : forall message,
  forallb is_update (fst (handle_frame message)) = true.
Proof.
  intros message. rewrite handle_frame_spec.
  destruct (startsWith message "data:"); [|reflexivity]. simpl.
  destruct (String.eqb _ "[DONE]"); [reflexivity|].
  destruct (JSON_parse _) as [data|]; [|reflexivity]. simpl.
  rewrite handle_json_actions.
  destruct (get_prop data "tag") as [tag|]; [|reflexivity].
  destruct (strict_eq_str tag "STATUS"), (strict_eq_str tag "ERROR");
    repeat (simpl; match goal with
                   | |- context [match ?x with _ => _ end] => destruct x
                   end); reflexivity.
Qed.

Lemma drain_updates : forall f s, forallb is_update (fst (drain f s)) = true.
Proof.
  induction f as [|f IH]; intros s; [reflexivity|].
  destruct (next_frame s) as [[m b]|] eqn:Hn.
  - rewrite (drain_step _ _ _ _ Hn). apply bind_updates; auto using handle_frame_updates.
  - simpl. rewrite Hn. reflexivity.
Qed.

Lemma read_loop_updates : forall reads b,
  forallb is_update (fst (read_loop b reads)) = true.
Proof.
  induction reads as [|[v|e] reads IH]; intros b; [reflexivity| |reflexivity].
  cbn [read_loop]. apply bind_updates; auto using drain_updates.
Qed.

Lemma session_try_updates : forall uploadRes streamRes reads,
  forallb is_update (fst (session_try uploadRes streamRes reads)) = true.
Proof.
  intros uploadRes streamRes reads. unfold session_try.
  apply bind_updates; [reflexivity|]. intros [].
  destruct uploadRes as [ok status body|e]; [|reflexivity].
  apply bind_updates; [destruct ok; reflexivity|]. intros [].
  apply bind_updates; [reflexivity|]. intros [].
  destruct streamRes as [ok' status' body'|e]; [|reflexivity].
  apply bind_updates; [destruct (ok' && body'); reflexivity|]. intros [].
  apply read_loop_updates.
Qed.

Lemma apply_updates : forall acts s,
  forallb is_update acts = true ->
  error (apply_all s acts) = error s /\ isProcessing (apply_all s acts) = isProcessing s.
Proof.
  induction acts as [|a acts IH]; intros s H; [auto|].
  simpl in H. apply andb_true_iff in H as [Ha Hacts].
  unfold apply_all in *. simpl.
  destruct (IH (streamReducer s a) Hacts) as [-> ->].
  destruct a; try discriminate; simpl; auto.
Qed.

Lemma apply_all_app : forall s acts acts',
  apply_all s (app acts acts') = apply_all (apply_all s acts) acts'.
Proof. intros. unfold apply_all. apply fold_left_app. Qed.

(** ** The completion sentinel *)

(** A [Returned] exit of the session's [try] block is the [DONE]
    sentinel: [handle_frame] is the only place that returns. *)
Lemma handle_frame_returned : forall message acts,
  handle_frame message = (acts, Returned) ->
  startsWith message "data:" = true /\
  trim (substring_from 5 message) = "[DONE]" /\ acts = [].
Proof.
  intros message acts H. rewrite handle_frame_spec in H.
  destruct (startsWith message "data:"); [|discriminate].
  simpl in H. destruct (String.eqb _ "[DONE]") eqn:E; [|discriminate].
  apply String.eqb_eq in E. injection H as <-. auto.
Qed.

(** C5: when the read loop reaches [DONE] in some chunk [c], the session
    dispatches exactly what was dispatched before it, then [COMPLETE] in
    [finally]; any text after the sentinel in that chunk and any later
    read ([t], [more]) is never processed, and the session ends
    successfully: not processing, with the completion status and no
    error. *)
Theorem done_ends_session :
  forall (closure current : State) (name : string) (uploadRes streamRes : response)
         (pre : list read_result) (c t : string) (more : list read_result)
         (acts : list action),
  isProcessing closure = false ->
  session_try uploadRes streamRes (app pre [RChunk c]) = (acts, Returned) ->
  let out := handleUploadAndAnalyze closure (Some name) uploadRes streamRes
               (app pre (RChunk (c ++ t) :: more)) in
  out = START :: app acts [COMPLETE complete_message] /\
  isProcessing (apply_all current out) = false /\
  statusMessage (apply_all current out) = JStr complete_message /\
  error (apply_all current out) = None.
Proof.
  intros closure current name uploadRes streamRes pre c t more acts Hp Hs out.
  assert (Hout : out = START :: app acts [COMPLETE complete_message]).
  { unfold out, handleUploadAndAnalyze. rewrite Hp.
    rewrite (session_try_returned_extend _ _ _ _ _ _ _ Hs). reflexivity. }
  assert (Hu : forallb is_update acts = true).
  { pose proof (session_try_updates uploadRes streamRes (app pre [RChunk c])) as U.
    rewrite Hs in U. exact U. }
  rewrite Hout. change (apply_all current (START :: app acts [COMPLETE complete_message]))
    with (apply_all (streamReducer current START) (app acts [COMPLETE complete_message])).
  rewrite apply_all_app.
  destruct (apply_updates acts (streamReducer current START) Hu) as [He Hi].
  simpl. repeat split; auto.
Qed.

Lemma done_ends_session_witness :
  isProcessing initialState = false /\
  session_try ok_response ok_response (app done_witness_reads [RChunk ("data: [DONE]" ++ nl2)]) =
    ([UPDATE_STATUS (JStr "Uploading file to server...");
      UPDATE_STATUS (JStr "File uploaded. Starting processing stream...");
      APPEND_TRANSCRIPT (JStr "a")], Returned) /\
  handleUploadAndAnalyze initialState (Some "meeting.mp3") ok_response ok_response
    (app done_witness_reads
       (RChunk ("data: [DONE]" ++ nl2 ++ dq "data: {'transcript':'z'}" ++ nl2)
        :: [RChunk (dq "data: {'summary':'y'}" ++ nl2)])) =
  START :: app [UPDATE_STATUS (JStr "Uploading file to server...");
                UPDATE_STATUS (JStr "File uploaded. Starting processing stream...");
                APPEND_TRANSCRIPT (JStr "a")] [COMPLETE complete_message].
Proof.
  assert (Hs : session_try ok_response ok_response
                 (app done_witness_reads [RChunk ("data: [DONE]" ++ nl2)]) =
    ([UPDATE_STATUS (JStr "Uploading file to server...");
      UPDATE_STATUS (JStr "File uploaded. Starting processing stream...");
      APPEND_TRANSCRIPT (JStr "a")], Returned)) by (vm_compute; reflexivity).
  split; [reflexivity|]. split; [exact Hs|].
  exact (proj1 (done_ends_session initialState initialState "meeting.mp3"
                  ok_response ok_response done_witness_reads ("data: [DONE]" ++ nl2)
                  (dq "data: {'transcript':'z'}" ++ nl2)
                  [RChunk (dq "data: {'summary':'y'}" ++ nl2)] _ eq_refl Hs)).
Defined.

(** ** Malformed frames *)

Lemma drain_encode_cons : forall r rs,
  has_newline r = false ->
  drain (S (String.length (encode (r :: rs)))) (encode (r :: rs)) =
  (handle_frame (trim r) ;;; drain (S (String.length (encode rs))) (encode rs)).
Proof.
  intros r rs Hr.
  assert (Hn : next_frame (encode (r :: rs)) = Some (trim r, encode rs)).
  { unfold next_frame. change (encode (r :: rs)) with (r ++ nl2 ++ encode rs).
    rewrite (split_nn_record r _ Hr). reflexivity. }
  rewrite (drain_step _ _ _ _ Hn).
  pose proof (next_frame_length _ _ _ Hn).
  rewrite (drain_fuel (String.length (encode (r :: rs))) (S (String.length (encode rs))))
    by lia.
  reflexivity.
Qed.

Lemma bind_skip : forall {B} (k : unit -> M B), (([], Normal tt) ;;; k tt) = k tt.
Proof. intros B k. simpl. destruct (k tt); reflexivity. Qed.

(** C7: a [data:] frame whose body is not valid JSON dispatches nothing
    and lets the loop continue; decoding a stream with it gives exactly
    what the same stream without it gives, so the frames before and after
    it are applied as usual. *)
Theorem malformed_frame_skipped : forall (pre post : list string) (bad : string),
  forallb (fun r => negb (has_newline r)) (app pre (bad :: post)) = true ->
  startsWith (trim bad) "data:" = true ->
  String.eqb (trim (substring_from 5 (trim bad))) "[DONE]" = false ->
  JSON_parse (trim (substring_from 5 (trim bad))) = None ->
  handle_frame (trim bad) = ([], Normal tt) /\
  drain (S (String.length (encode (app pre (bad :: post))))) (encode (app pre (bad :: post))) =
  drain (S (String.length (encode (app pre post)))) (encode (app pre post)).
Proof.
  intros pre post bad Hnl Hd Hdone Hparse.
  assert (Hbad : handle_frame (trim bad) = ([], Normal tt)).
  { rewrite handle_frame_spec, Hd. simpl. rewrite Hdone, Hparse. reflexivity. }
  split; [exact Hbad|].
  induction pre as [|r pre IH].
  - simpl in Hnl. apply andb_true_iff in Hnl as [Hb _]. apply negb_true_iff in Hb.
    simpl app. rewrite (drain_encode_cons _ _ Hb), Hbad.
    exact (bind_skip (fun _ => drain _ (encode post))).
  - simpl in Hnl. apply andb_true_iff in Hnl as [Hr Hrest]. apply negb_true_iff in Hr.
    simpl app. rewrite !(drain_encode_cons _ _ Hr), (IH Hrest). reflexivity.
Qed.

Lemma malformed_frame_skipped_witness :
  let pre := [dq "data: {'transcript':'before'}"] in
  let post := [dq "data: {'transcript':'after'}"] in
  let bad := dq "data: {'transcript': oops" in
  drain (S (String.length (encode (app pre (bad :: post))))) (encode (app pre (bad :: post))) =
  ([APPEND_TRANSCRIPT (JStr "before"); APPEND_TRANSCRIPT (JStr "after")], Normal EmptyString).
Proof.
  intros pre post bad.
  rewrite (proj2 (malformed_frame_skipped pre post bad eq_refl eq_refl eq_refl eq_refl)).
  vm_compute. reflexivity.
Defined.

(** ** Backend [ERROR] payloads *)

(** A parsed payload tagged [ERROR] dispatches nothing and the read loop
    goes on: the [Error] thrown for it is caught by the [catch] meant for
    JSON parse failures. *)
Lemma error_tag_frame_swallowed : forall message data,
  startsWith message "data:" = true ->
  String.eqb (trim (substring_from 5 message)) "[DONE]" = false ->
  JSON_parse (trim (substring_from 5 message)) = Some data ->
  get_prop data "tag" = Some (JStr "ERROR") ->
  handle_frame message = ([], Normal tt).
Proof.
  intros message data Hd Hdone Hp Ht.
  rewrite handle_frame_spec, Hd. simpl. rewrite Hdone, Hp, handle_json_actions, Ht.
  reflexivity.
Qed.

(** C1 fails: after [{"tag":"ERROR","message":"boom"}] the session goes
    on, applies the later transcript fragment, and ends successfully with
    no error. *)
Theorem error_payload_does_not_abort :
  let final := apply_all ready_state
    (handleUploadAndAnalyze ready_state (Some "meeting.mp3")
       ok_response ok_response error_tag_reads) in
  error final = None /\ transcript final = "x" /\ isProcessing final = false /\
  statusMessage final = JStr complete_message.
Proof. vm_compute. repeat split. Qed.

(** ** Terminal transitions of a session *)

(** C2 fails: when the upload answers 500, [catch] dispatches the upload
    error and [finally] then dispatches the interruption error, because
    it reads [state.error] from the state the handler closed over. *)
Theorem upload_failure_two_terminals :
  let out := handleUploadAndAnalyze ready_state (Some "meeting.mp3")
               (Resp false 500%N true) ok_response [] in
  out = [START; UPDATE_STATUS (JStr "Uploading file to server...");
         ERROR "Upload failed with status 500"; ERROR interrupted_message] /\
  error (apply_all ready_state out) = Some interrupted_message.
Proof. vm_compute. split; reflexivity. Qed.

(** ** Aborted sessions *)

(** C3 fails: a session whose read rejects with an [AbortError] ends
    with the interruption reported as its error. *)
Lemma abort_reports_error :
  let final := apply_all ready_state
    (handleUploadAndAnalyze ready_state (Some "meeting.mp3")
       ok_response ok_response aborted_reads) in
  isProcessing final = false /\ error final = Some interrupted_message.
Proof. vm_compute. split; reflexivity. Qed.

(** C3 as the code has it: when the [try] block exits with an
    [AbortError], the [catch] dispatches nothing, and when the
    [state.error] the handler closed over is empty, [finally] dispatches
    the interruption error: the session ends not processing, with that
    error. *)
Theorem abort_reported_as_interruption :
  forall (closure current : State) (name : string) (uploadRes streamRes : response)
         (reads : list read_result) (acts : list action) (e : js_error),
  isProcessing closure = false ->
  no_error (error closure) = true ->
  session_try uploadRes streamRes reads = (acts, Thrown e) ->
  err_name e = "AbortError" ->
  let out := handleUploadAndAnalyze closure (Some name) uploadRes streamRes reads in
  out = START :: app acts [ERROR interrupted_message] /\
  isProcessing (apply_all current out) = false /\
  error (apply_all current out) = Some interrupted_message.
Proof.
  intros closure current name uploadRes streamRes reads acts e Hp Hn Hs He out.
  assert (Hout : out = START :: app acts [ERROR interrupted_message]).
  { unfold out, handleUploadAndAnalyze. rewrite Hp.
    unfold try_catch. rewrite Hs. unfold session_catch. rewrite He. simpl.
    rewrite Hn, app_nil_r. reflexivity. }
  split; [exact Hout|]. rewrite Hout.
  change (apply_all current (START :: app acts [ERROR interrupted_message]))
    with (apply_all (streamReducer current START) (app acts [ERROR interrupted_message])).
  rewrite apply_all_app. simpl. split; reflexivity.
Qed.

Lemma abort_reported_as_interruption_witness :
  isProcessing ready_state = false /\
  no_error (error ready_state) = true /\
  session_try ok_response ok_response aborted_reads =
    ([UPDATE_STATUS (JStr "Uploading file to server...");
      UPDATE_STATUS (JStr "File uploaded. Starting processing stream...");
      APPEND_TRANSCRIPT (JStr "hi")],
     Thrown (mk_error "AbortError" "The user aborted a request.")) /\
  error (apply_all initialState
           (handleUploadAndAnalyze ready_state (Some "meeting.mp3")
              ok_response ok_response aborted_reads)) = Some interrupted_message.
Proof.
  assert (Hs : session_try ok_response ok_response aborted_reads =
    ([UPDATE_STATUS (JStr "Uploading file to server...");
      UPDATE_STATUS (JStr "File uploaded. Starting processing stream...");
      APPEND_TRANSCRIPT (JStr "hi")],
     Thrown (mk_error "AbortError" "The user aborted a request.")))
    by (vm_compute; reflexivity).
  split; [reflexivity|]. split; [reflexivity|]. split; [exact Hs|].
  exact (proj2 (proj2 (abort_reported_as_interruption ready_state initialState
           "meeting.mp3" ok_response ok_response aborted_reads _ _
           eq_refl eq_refl Hs eq_refl))).
Defined.

(** * Further properties of the code *)

(** ** The reducer over whole sequences of actions *)

Lemma reducer_step_grows : forall s a, not_start a = true ->
  exists x y, transcript (streamReducer s a) = transcript s ++ x /\
              summary (streamReducer s a) = summary s ++ y.
Proof.
  intros s a Ha.
  destruct a; try discriminate; cbn [streamReducer transcript summary];
    first [ exists EmptyString, EmptyString; split; symmetry; apply str_app_nil_r
          | eexists _, EmptyString; split; [reflexivity | symmetry; apply str_app_nil_r]
          | eexists EmptyString, _; split; [symmetry; apply str_app_nil_r | reflexivity] ].
Qed.

(** X1: [START] is the only action that removes text: after any sequence
    of other actions, the old transcript and summary are prefixes of the
    new ones. *)
Theorem transcript_summary_append_only : forall (acts : list action) (s : State),
  forallb not_start acts = true ->
  exists x y, transcript (apply_all s acts) = transcript s ++ x /\
              summary (apply_all s acts) = summary s ++ y.
Proof.
  induction acts as [|a acts IH]; intros s H.
  - exists EmptyString, EmptyString. rewrite !str_app_nil_r. split; reflexivity.
  - simpl in H. apply andb_true_iff in H as [Ha Hacts].
    destruct (reducer_step_grows s a Ha) as [x [y [Hx Hy]]].
    destruct (IH (streamReducer s a) Hacts) as [x' [y' [Hx' Hy']]].
    exists (x ++ x'), (y ++ y'). unfold apply_all in *. simpl.
    rewrite Hx', Hy', Hx, Hy, !str_app_assoc. split; reflexivity.
Qed.

Lemma transcript_summary_append_only_witness :
  forallb not_start [APPEND_TRANSCRIPT (JStr "a"); ERROR "x"; UPDATE_STATUS JNull] = true /\
  exists x y,
    transcript (apply_all initialState
      [APPEND_TRANSCRIPT (JStr "a"); ERROR "x"; UPDATE_STATUS JNull]) =
    transcript initialState ++ x /\
    summary (apply_all initialState
      [APPEND_TRANSCRIPT (JStr "a"); ERROR "x"; UPDATE_STATUS JNull]) =
    summary initialState ++ y.
Proof.
  split; [reflexivity|].
  apply (transcript_summary_append_only _ initialState). reflexivity.
Defined.



Lemma concat_spaced : forall l a,
  String.concat " " (a :: l) = a ++ spaced l.
Proof.
  induction l as [|b l IH]; intros a.
  - simpl. rewrite str_app_nil_r. reflexivity.
  - change (String.concat " " (a :: b :: l)) with (a ++ " " ++ String.concat " " (b :: l)).
    rewrite IH. reflexivity.
Qed.

Lemma transcript_nonempty_parts : forall acts s,
  0 < String.length (transcript s) -> forallb not_start acts = true ->
  transcript (apply_all s acts) = transcript s ++ spaced (transcript_parts acts).
Proof.
  induction acts as [|a acts IH]; intros s Hs H.
  - simpl. rewrite str_app_nil_r. reflexivity.
  - simpl in H. apply andb_true_iff in H as [Ha Hacts].
    unfold apply_all in *. simpl fold_left.
    destruct a; try discriminate; rewrite IH; auto; cbn [streamReducer transcript];
      try (simpl transcript_parts; reflexivity);
      try (assert (Hl : Nat.ltb 0 (String.length (transcript s)) = true)
             by (apply Nat.ltb_lt; exact Hs);
           rewrite Hl; simpl transcript_parts; cbn [spaced fold_right];
           rewrite str_app_assoc; reflexivity);
      rewrite str_app_length; lia.
Qed.

(** X3: from an empty transcript, a sequence of actions without [START]
    whose transcript fragments are non-empty leaves as transcript exactly
    those fragments joined by single spaces; status, summary and terminal
    actions in between do not affect it. *)
Theorem transcript_is_joined_fragments : forall (acts : list action) (s : State),
  transcript s = EmptyString ->
  forallb not_start acts = true ->
  forallb (fun t => negb (String.eqb t EmptyString)) (transcript_parts acts) = true ->
  transcript (apply_all s acts) = String.concat " " (transcript_parts acts).
Proof.
  induction acts as [|a acts IH]; intros s Hs H Hp.
  - simpl. exact Hs.
  - simpl in H. apply andb_true_iff in H as [Ha Hacts].
    change (apply_all s (a :: acts)) with (apply_all (streamReducer s a) acts).
    destruct a; try discriminate; simpl transcript_parts in Hp |- *;
      try (apply IH; auto; cbn [streamReducer transcript]; exact Hs).
    simpl in Hp. apply andb_true_iff in Hp as [Hp0 Hp].
    apply negb_true_iff in Hp0.
    rewrite transcript_nonempty_parts; auto.
    + rewrite concat_spaced. cbn [streamReducer transcript]. rewrite Hs.
      reflexivity.
    + cbn [streamReducer transcript]. rewrite Hs. simpl.
      destruct (to_js_string payload); [discriminate|simpl; lia].
Qed.

Lemma transcript_is_joined_fragments_witness :
  let acts := [APPEND_TRANSCRIPT (JStr "hello"); UPDATE_STATUS (JStr "x");
               APPEND_SUMMARY (JStr "s"); APPEND_TRANSCRIPT (JStr "world")] in
  transcript initialState = EmptyString /\
  forallb not_start acts = true /\
  forallb (fun t => negb (String.eqb t EmptyString)) (transcript_parts acts) = true /\
  transcript (apply_all initialState acts) = String.concat " " (transcript_parts acts).
Proof.
  intros acts. split; [reflexivity|]. split; [reflexivity|]. split; [reflexivity|].
  apply transcript_is_joined_fragments; reflexivity.
Defined.

(** ** Outcomes of a session *)

Lemma session_catch_normal : forall e,
  snd (session_catch e) = Normal tt /\ forallb is_terminal (fst (session_catch e)) = true /\
  (length (fst (session_catch e)) <= 1)%nat.
Proof.
  intros e. unfold session_catch.
  destruct (String.eqb (err_name e) "AbortError"); simpl; auto.
Qed.

(** X4: a session that starts dispatches [START], then only status and
    append actions (from its [try] block), then at most two terminal
    actions ([COMPLETE] or [ERROR], from [catch] and [finally]). *)
Theorem session_shape :
  forall (closure : State) (name : string) (uploadRes streamRes : response)
         (reads : list read_result),
  isProcessing closure = false ->
  exists ups terms,
    handleUploadAndAnalyze closure (Some name) uploadRes streamRes reads =
      START :: app ups terms /\
    forallb is_update ups = true /\ forallb is_terminal terms = true /\
    (length terms <= 2)%nat.
Proof.
  intros closure name uploadRes streamRes reads H.
  unfold handleUploadAndAnalyze. rewrite H.
  pose proof (session_try_updates uploadRes streamRes reads) as Hu.
  destruct (session_try uploadRes streamRes reads) as [acts ex]. simpl in Hu.
  destruct ex as [[]|e|]; unfold try_catch.
  - exists acts, (if no_error (error closure) then [ERROR interrupted_message] else []).
    repeat split; auto; destruct (no_error (error closure)); simpl; auto.
  - destruct (session_catch_normal e) as [Hn [Ht Hl]].
    destruct (session_catch e) as [acts' ex']. simpl in Hn, Ht, Hl. subst ex'.
    exists acts, (app acts' (if no_error (error closure) then [ERROR interrupted_message] else [])).
    rewrite app_assoc. repeat split; auto.
    + rewrite forallb_app, Ht. destruct (no_error (error closure)); reflexivity.
    + rewrite length_app. destruct (no_error (error closure)); simpl; lia.
  - exists acts, [COMPLETE complete_message]. repeat split; auto.
Qed.

Lemma session_shape_witness :
  isProcessing ready_state = false /\
  exists ups terms,
    handleUploadAndAnalyze ready_state (Some "a.mp3") (Resp false 500%N true)
      ok_response [] = START :: app ups terms /\
    forallb is_update ups = true /\ forallb is_terminal terms = true /\
    (length terms <= 2)%nat.
Proof.
  split; [reflexivity|]. apply session_shape. reflexivity.
Defined.

Lemma apply_start_cons : forall s l,
  apply_all s (START :: l) = apply_all (streamReducer s START) l.
Proof. reflexivity. Qed.

(** X5: when the state captured by the handler has no error, every
    session that starts ends not processing. If the stream reached
    [DONE] (the only way the [try] block returns), the error is cleared
    and the status is the completion message; on every other path
    (upload, stream or network failure, abort, or end of stream without
    [DONE]) the published error is the interruption message, whatever
    error was dispatched before it. *)
Theorem session_outcome_clean_closure :
  forall (closure : State) (name : string) (uploadRes streamRes : response)
         (reads : list read_result) (s : State),
  isProcessing closure = false ->
  no_error (error closure) = true ->
  let final := apply_all s (handleUploadAndAnalyze closure (Some name) uploadRes streamRes reads) in
  isProcessing final = false /\
  match snd (session_try uploadRes streamRes reads) with
  | Returned => error final = None /\ statusMessage final = JStr complete_message
  | _ => error final = Some interrupted_message /\
         statusMessage final = JStr (error_prefix ++ interrupted_message)
  end.
Proof.
  intros closure name uploadRes streamRes reads s H Hne final. subst final.
  unfold handleUploadAndAnalyze. rewrite H, Hne.
  pose proof (session_try_updates uploadRes streamRes reads) as Hu.
  destruct (session_try uploadRes streamRes reads) as [acts ex]. simpl snd.
  simpl in Hu.
  destruct ex as [[]|e|]; unfold try_catch.
  - rewrite apply_start_cons, apply_all_app. repeat split; reflexivity.
  - destruct (session_catch_normal e) as [Hn _].
    destruct (session_catch e) as [acts' ex']. simpl in Hn. subst ex'.
    rewrite apply_start_cons, apply_all_app. repeat split; reflexivity.
  - rewrite apply_start_cons, apply_all_app.
    split; [reflexivity|]. split; [|reflexivity].
    cbn [apply_all fold_left streamReducer error].
    rewrite (proj1 (apply_updates acts _ Hu)). reflexivity.
Qed.

Lemma session_outcome_clean_closure_witness :
  isProcessing ready_state = false /\ no_error (error ready_state) = true /\
  let final := apply_all ready_state
    (handleUploadAndAnalyze ready_state (Some "a.mp3") ok_response (Resp false 502%N true) []) in
  isProcessing final = false /\
  match snd (session_try ok_response (Resp false 502%N true) []) with
  | Returned => error final = None /\ statusMessage final = JStr complete_message
  | _ => error final = Some interrupted_message /\
         statusMessage final = JStr (error_prefix ++ interrupted_message)
  end.
Proof.
  split; [reflexivity|]. split; [reflexivity|].
  apply session_outcome_clean_closure; reflexivity.
Defined.

(** X6: when the state captured by the handler still carries an error
    (the memoised handler was created after a failed session and not
    recreated since), a session whose [try] block ends normally (the
    stream ends without [DONE]) or by an [AbortError] dispatches no
    terminal action: the published state stays processing, with no error,
    and the button stays disabled. *)
Theorem session_stuck_with_stale_error :
  forall (closure : State) (name : string) (uploadRes streamRes : response)
         (reads : list read_result) (s : State),
  isProcessing closure = false ->
  no_error (error closure) = false ->
  (snd (session_try uploadRes streamRes reads) = Normal tt \/
   exists e, snd (session_try uploadRes streamRes reads) = Thrown e /\
             err_name e = "AbortError") ->
  let final := apply_all s (handleUploadAndAnalyze closure (Some name) uploadRes streamRes reads) in
  isProcessing final = true /\ error final = None.
Proof.
  intros closure name uploadRes streamRes reads s H Hne Hex final. subst final.
  unfold handleUploadAndAnalyze. rewrite H, Hne.
  pose proof (session_try_updates uploadRes streamRes reads) as Hu.
  destruct (session_try uploadRes streamRes reads) as [acts ex]. simpl in Hu, Hex.
  destruct Hex as [-> | [e [-> Hn]]]; unfold try_catch.
  - rewrite app_nil_r, apply_start_cons.
    destruct (apply_updates acts (streamReducer s START) Hu) as [He Hp].
    rewrite He, Hp. split; reflexivity.
  - replace (session_catch e) with (@ret unit tt)
      by (unfold session_catch; rewrite Hn; reflexivity).
    unfold ret. cbv beta iota zeta.
    rewrite !app_nil_r, apply_start_cons.
    destruct (apply_updates acts (streamReducer s START) Hu) as [He Hp].
    rewrite He, Hp. split; reflexivity.
Qed.

Lemma session_stuck_with_stale_error_witness :
  let closure := apply_all ready_state [ERROR "boom"] in
  isProcessing closure = false /\ no_error (error closure) = false /\
  snd (session_try ok_response ok_response []) = Normal tt /\
  let final := apply_all closure
    (handleUploadAndAnalyze closure (Some "a.mp3") ok_response ok_response []) in
  isProcessing final = true /\ error final = None.
Proof.
  intros closure. split; [reflexivity|]. split; [reflexivity|]. split; [reflexivity|].
  apply session_stuck_with_stale_error; [reflexivity | reflexivity | left; reflexivity].
Defined.

(** ** Streams without a blank line *)

Lemma split_nn_app_none : forall x y,
  split_nn (x ++ y) = None -> split_nn x = None.
Proof.
  intros x y H. destruct (split_nn x) as [[a b]|] eqn:E; [|reflexivity].
  rewrite (split_nn_app _ y _ _ E) in H. discriminate.
Qed.

Lemma read_loop_no_blank : forall chunks b,
  split_nn (b ++ join_chunks chunks) = None ->
  read_loop b (map RChunk chunks) = ([], Normal tt).
Proof.
  induction chunks as [|c chunks IH]; intros b H; [reflexivity|].
  change (join_chunks (c :: chunks)) with (c ++ join_chunks chunks) in H.
  rewrite <- str_app_assoc in H.
  cbn [map read_loop].
  assert (Hd : drain (S (String.length (b ++ c))) (b ++ c) = ret (b ++ c)).
  { simpl. unfold next_frame. rewrite (split_nn_app_none _ _ H). reflexivity. }
  rewrite Hd. unfold ret. cbn [bind]. rewrite (IH _ H). reflexivity.
Qed.

(** X7: when the upload and stream requests succeed but the text of the
    stream never contains a blank line (for instance events ended by
    CRLF line ends), no frame is ever handled: the session dispatches
    only its two status updates and, when the captured state has no
    error, ends with the interruption error. *)
Theorem stream_without_blank_line :
  forall (closure : State) (name : string) (n1 n2 : N) (b1 : bool)
         (chunks : list string),
  isProcessing closure = false ->
  no_error (error closure) = true ->
  has_blank_line (join_chunks chunks) = false ->
  handleUploadAndAnalyze closure (Some name) (Resp true n1 b1) (Resp true n2 true)
    (map RChunk chunks) =
  [START; UPDATE_STATUS (JStr "Uploading file to server...");
   UPDATE_STATUS (JStr "File uploaded. Starting processing stream...");
   ERROR interrupted_message].
Proof.
  intros closure name n1 n2 b1 chunks H Hne Hb.
  assert (Hs : split_nn (EmptyString ++ join_chunks chunks) = None).
  { unfold has_blank_line in Hb. simpl. destruct (split_nn (join_chunks chunks)) as [[]|];
      [discriminate|reflexivity]. }
  unfold handleUploadAndAnalyze. rewrite H, Hne.
  unfold session_try. cbn [andb]. unfold ret, dispatch. cbn [bind].
  rewrite (read_loop_no_blank _ _ Hs). reflexivity.
Qed.

Lemma stream_without_blank_line_witness :
  let chunks := [dq "data: {'transcript':'a'}" ++ crlf ++ crlf;
                 "data: [DONE]" ++ crlf ++ crlf] in
  has_blank_line (join_chunks chunks) = false /\
  handleUploadAndAnalyze ready_state (Some "a.mp3") ok_response ok_response
    (map RChunk chunks) =
  [START; UPDATE_STATUS (JStr "Uploading file to server...");
   UPDATE_STATUS (JStr "File uploaded. Starting processing stream...");
   ERROR interrupted_message].
Proof.
  intros chunks. split; [vm_compute; reflexivity|].
  apply stream_without_blank_line; [reflexivity | reflexivity | vm_compute; reflexivity].
Defined.

(** ** The decoder's buffer *)

(** X8: whatever buffer and chunk it is given, [feed] emits every
    complete frame: the buffer it keeps never contains a blank line. *)
Theorem feed_keeps_no_blank_line : forall (buffer chunk : string),
  has_blank_line (snd (feed buffer chunk)) = false.
Proof.
  intros buffer chunk. unfold feed.
  destruct (frames_of _ (buffer ++ chunk)) as [fs r] eqn:E.
  pose proof (frames_of_rest _ _ _ _ (Nat.lt_succ_diag_r _) E) as Hr.
  unfold next_frame in Hr. unfold has_blank_line. simpl.
  destruct (split_nn r) as [[]|]; [discriminate|reflexivity].
Qed.

(** ** Payloads that are not objects, and other records *)

Lemma json_parse_done : JSON_parse "[DONE]" = None.
Proof. vm_compute. reflexivity. Qed.

(** X9: a [data:] frame whose body parses to [null], a number, a
    string, a boolean or an array dispatches nothing and lets the read
    loop continue: reading [tag] of [null] throws a [TypeError] that the
    inner [catch] swallows, and the other values have no [tag],
    [transcript] or [summary]. *)
Theorem non_object_payload_ignored : forall (message : string) (v : jsval),
  startsWith message "data:" = true ->
  JSON_parse (trim (substring_from 5 message)) = Some v ->
  match v with JObj _ => false | _ => true end = true ->
  handle_frame message = ([], Normal tt).
Proof.
  intros message v Hd Hp Hv.
  rewrite handle_frame_spec, Hd. cbv zeta.
  destruct (String.eqb (trim (substring_from 5 message)) "[DONE]") eqn:E.
  - apply String.eqb_eq in E. rewrite E, json_parse_done in Hp. discriminate.
  - rewrite Hp, handle_json_actions.
    destruct v; try discriminate; reflexivity.
Qed.

Lemma non_object_payload_ignored_witness :
  startsWith "data: [1,2]" "data:" = true /\
  JSON_parse (trim (substring_from 5 "data: [1,2]")) = Some (JArr [JNum "1"; JNum "2"]) /\
  handle_frame "data: [1,2]" = ([], Normal tt).
Proof.
  split; [reflexivity|]. split; [vm_compute; reflexivity|].
  apply (non_object_payload_ignored _ (JArr [JNum "1"; JNum "2"]));
    [reflexivity | vm_compute; reflexivity | reflexivity].
Defined.

Lemma drain_skip_silent : forall (pre post : list string) (r : string),
  forallb (fun r => negb (has_newline r)) (app pre (r :: post)) = true ->
  handle_frame (trim r) = ([], Normal tt) ->
  drain (S (String.length (encode (app pre (r :: post))))) (encode (app pre (r :: post))) =
  drain (S (String.length (encode (app pre post)))) (encode (app pre post)).
Proof.
  intros pre post r Hnl Hr.
  induction pre as [|p pre IH].
  - simpl in Hnl. apply andb_true_iff in Hnl as [Hb _]. apply negb_true_iff in Hb.
    simpl app. rewrite (drain_encode_cons _ _ Hb), Hr.
    exact (bind_skip (fun _ => drain _ (encode post))).
  - simpl in Hnl. apply andb_true_iff in Hnl as [Hp Hrest]. apply negb_true_iff in Hp.
    simpl app. rewrite !(drain_encode_cons _ _ Hp), (IH Hrest). reflexivity.
Qed.

(** X10: a record that does not start with [data:] (an SSE comment such
    as [: keep-alive], or an [event:], [id:] or [retry:] line) is
    ignored: decoding a stream with it dispatches the same actions and
    ends the same way as the stream without it. *)
Theorem non_data_record_ignored : forall (pre post : list string) (r : string),
  forallb (fun r => negb (has_newline r)) (app pre (r :: post)) = true ->
  startsWith (trim r) "data:" = false ->
  drain (S (String.length (encode (app pre (r :: post))))) (encode (app pre (r :: post))) =
  drain (S (String.length (encode (app pre post)))) (encode (app pre post)).
Proof.
  intros pre post r Hnl Hd. apply drain_skip_silent; auto.
  rewrite handle_frame_spec, Hd. reflexivity.
Qed.

Lemma non_data_record_ignored_witness :
  let pre := [dq "data: {'transcript':'a'}"] in
  let post := ["data: [DONE]"] in
  let r := ": keep-alive" in
  forallb (fun r => negb (has_newline r)) (app pre (r :: post)) = true /\
  startsWith (trim r) "data:" = false /\
  drain (S (String.length (encode (app pre (r :: post))))) (encode (app pre (r :: post))) =
  drain (S (String.length (encode (app pre post)))) (encode (app pre post)).
Proof.
  intros pre post r. split; [vm_compute; reflexivity|]. split; [vm_compute; reflexivity|].
  apply non_data_record_ignored; vm_compute; reflexivity.
Defined.

(** ** Rendering *)

(** X11: a [STATUS] payload without a [message] sets the status message
    to [undefined]; while processing, the button's label then evaluates
    [undefined.split(':')], which throws. *)
Theorem status_without_message_breaks_label :
  forall (message : string) (data : jsval) (s : State),
  startsWith message "data:" = true ->
  JSON_parse (trim (substring_from 5 message)) = Some data ->
  get_prop data "tag" = Some (JStr "STATUS") ->
  get_prop data "message" = Some JUndefined ->
  isProcessing s = true ->
  statusMessage (apply_all s (fst (handle_frame message))) = JUndefined /\
  button_label (apply_all s (fst (handle_frame message))) = None.
Proof.
  intros message data s Hd Hp Ht Hm Hs.
  rewrite handle_frame_spec, Hd. cbv zeta.
  destruct (String.eqb (trim (substring_from 5 message)) "[DONE]") eqn:E.
  - apply String.eqb_eq in E. rewrite E, json_parse_done in Hp. discriminate.
  - rewrite Hp. cbn [fst]. rewrite handle_json_actions, Ht, Hm.
    destruct (get_prop_defined _ _ "transcript" _ Ht) as [t Htr].
    destruct (get_prop_defined _ _ "summary" _ Ht) as [u Hu].
    rewrite Htr, Hu.
    unfold button_label.
    destruct (truthy t), (truthy u); simpl; rewrite Hs; split; reflexivity.
Qed.

Lemma status_without_message_breaks_label_witness :
  let m := dq "data: {'tag':'STATUS','transcript':'hi'}" in
  let s := streamReducer initialState START in
  startsWith m "data:" = true /\
  JSON_parse (trim (substring_from 5 m)) =
    Some (JObj [("tag", JStr "STATUS"); ("transcript", JStr "hi")]) /\
  statusMessage (apply_all s (fst (handle_frame m))) = JUndefined /\
  button_label (apply_all s (fst (handle_frame m))) = None.
Proof.
  intros m s. split; [reflexivity|]. split; [vm_compute; reflexivity|].
  apply (status_without_message_breaks_label m
           (JObj [("tag", JStr "STATUS"); ("transcript", JStr "hi")]) s);
    [reflexivity | vm_compute; reflexivity | reflexivity | reflexivity | reflexivity].
Defined.

(** X12: choosing a new file while not processing does not clear an
    error: the status panel keeps showing the old error instead of the
    "File selected" message, and the button stays enabled. *)
Theorem file_select_keeps_error :
  forall (s : State) (file : option string) (name e : string),
  isProcessing s = false ->
  error s = Some e ->
  String.eqb e EmptyString = false ->
  let s' := apply_all s (snd (handleFileChange s file (Some name))) in
  status_panel s' = JStr ("❌ " ++ e) /\ isProcessing s' = false /\
  statusMessage s' = JStr ("File selected: " ++ name ++ ". Ready to analyze.").
Proof.
  intros s file name e Hp He Hne s'. subst s'.
  unfold handleFileChange. rewrite Hp.
  cbn [snd apply_all fold_left streamReducer isProcessing error statusMessage].
  unfold status_panel. cbn [error]. rewrite He, Hne.
  repeat split; reflexivity.
Qed.

Lemma file_select_keeps_error_witness :
  let s := apply_all ready_state [START; ERROR "Upload failed with status 500"] in
  isProcessing s = false /\ error s = Some "Upload failed with status 500" /\
  status_panel (apply_all s (snd (handleFileChange s (Some "a.mp3") (Some "b.mp3")))) =
    JStr ("❌ " ++ "Upload failed with status 500").
Proof.
  intros s. split; [reflexivity|]. split; [reflexivity|].
  apply (file_select_keeps_error s (Some "a.mp3") "b.mp3" "Upload failed with status 500");
    reflexivity.
Defined.

(** ** The [Upload] component *)



(** X14: through the button ([disabled={!localFile || isUploading}]), the
    "Please select a file first." error of [handleUpload] is never
    produced: after a click it is shown only if it was shown before. *)
Theorem upload_click_never_asks_for_file :
  forall (st : UploadState) (app : AppState) (res : response),
  upload_error (fst (upload_click st app res)) = Some "Please select a file first." ->
  upload_error st = Some "Please select a file first.".
Proof.
  intros st app res H. unfold upload_click in H.
  destruct (localFile st) as [f|] eqn:Hf; [|exact H].
  destruct (isUploading st); [exact H|].
  unfold handleUpload, handleUpload_begin in H. rewrite Hf in H.
  destruct res as [[] status body | e]; cbn in H; discriminate.
Qed.

Lemma upload_click_never_asks_for_file_witness :
  let st := mkUploadState None false (Some "Please select a file first.") in
  upload_error (fst (upload_click st (mkAppState None []) (Resp true 200%N true))) =
    Some "Please select a file first." /\
  upload_error st = Some "Please select a file first.".
Proof.
  intros st. split; [reflexivity|].
  apply (upload_click_never_asks_for_file st (mkAppState None []) (Resp true 200%N true)).
  reflexivity.
Defined.
